(** * Benefits Finder backend: the matcher and the storage-backed endpoints

    A shallow embedding of [main.py] and [schemas.py].

    - Python [int] is [Z]; Python [float] (IEEE binary64, the type pydantic
      coerces [income] and [max_income] to) is [spec_float] with its own
      comparison [SFleb], so NaN and the infinities behave as in the code.
    - [Optional[T]] is [option T]; Python truthiness of an optional string,
      boolean or list is written out ([truthy_str], [truthy_bool],
      [truthy_list]).
    - [str.lower] is a parameter of the matcher: the general results hold for
      every lowering function; the worked examples use [ascii_lower], which
      is what [str.lower] does on ASCII text such as region codes.
    - The process-wide handle [db] and the collections behind it are an
      explicit [World], threaded through the endpoints by a small
      state-and-exception monad. *)

From Stdlib Require Import ZArith NArith Ascii String Floats.SpecFloat.
From stdpp Require Import base option list strings gmap.

Local Open Scope string_scope.
Local Open Scope list_scope.
Local Open Scope Z_scope.

(** ** schemas.py *)

Abbreviation float := spec_float.

(** [float(z)] for a Python integer literal, as pydantic coerces
    [max_income=30000] into a binary64 value. *)
Definition float_of_Z (z : Z) : float := binary_normalize 53 1024 z 0 false.

Module Benefit.
Record t := mk {
  name : string;
  agency : option string;
  description : string;
  category : string;
  url : option string;
  eligibility_notes : option string;
  min_age : option Z;
  max_age : option Z;
  max_income : option float;
  location : option string;
  requires_disability : option bool;
  requires_veteran : option bool;
  requires_dependents : option bool;
  tags : option (list string)
}.
End Benefit.

Module Inquiry.
Record t := mk {
  age : option Z;
  income : option float;
  location : option string;
  disability : option bool;
  veteran : option bool;
  dependents : option Z;
  employment_status : option string;
  housing_status : option string;
  tags : option (list string)
}.
End Inquiry.

(** ** Python truthiness *)

Definition truthy_str (s : option string) : bool :=
  match s with
  | Some s => negb (String.eqb s "")
  | None => false
  end.

Definition truthy_bool (b : option bool) : bool :=
  match b with
  | Some true => true
  | _ => false
  end.

Definition truthy_list {A} (l : option (list A)) : bool :=
  match l with
  | Some (_ :: _) => true
  | _ => false
  end.

(** [str.lower] restricted to ASCII letters. *)
Definition ascii_lower_char (c : ascii) : ascii :=
  let n := N_of_ascii c in
  if ((65 <=? n) && (n <=? 90))%N then ascii_of_N (n + 32) else c.

Fixpoint ascii_lower (s : string) : string :=
  match s with
  | EmptyString => EmptyString
  | String c s' => String (ascii_lower_char c) (ascii_lower s')
  end.

(** ** main.py: the matching loop of [match_benefits] *)

Section Matcher.
Variable lower : string → string.

(** [set([t.lower() for t in xs])] *)
Definition lowered_set (xs : option (list string)) : gset string :=
  list_to_set (lower <$> default [] xs).

(** One iteration of [for b in benefits], up to the accept check:
    [None] is a [continue], [Some score] reaches [if score >= 0]. *)
Definition score_benefit (profile : Inquiry.t) (b : Benefit.t) : option Z :=
  let score := 0 in
  (* Income threshold *)
  score ←
    match Inquiry.income profile, Benefit.max_income b with
    | Some income, Some max_income =>
        if SFleb income max_income then Some (score + 2) else None
    | _, _ => Some score
    end;
  (* Age bounds *)
  if match Benefit.min_age b, Inquiry.age profile with
     | Some min_age, Some age => age <? min_age
     | _, _ => false
     end then None else
  if match Benefit.max_age b, Inquiry.age profile with
     | Some max_age, Some age => age >? max_age
     | _, _ => false
     end then None else
  (* Location (if specified on benefit) *)
  if truthy_str (Benefit.location b) && truthy_str (Inquiry.location profile)
     && match Benefit.location b, Inquiry.location profile with
        | Some bl, Some pl => negb (String.eqb (lower bl) (lower pl))
        | _, _ => false
        end then None else
  (* Flags *)
  if truthy_bool (Benefit.requires_disability b)
     && negb (truthy_bool (Inquiry.disability profile)) then None else
  if truthy_bool (Benefit.requires_veteran b)
     && negb (truthy_bool (Inquiry.veteran profile)) then None else
  if truthy_bool (Benefit.requires_dependents b)
     && match Inquiry.dependents profile with
        | None => true
        | Some d => d =? 0
        end then None else
  (* Soft tag match boosts *)
  let score :=
    if truthy_list (Inquiry.tags profile) && truthy_list (Benefit.tags b) then
      let shared := lowered_set (Inquiry.tags profile) ∩ lowered_set (Benefit.tags b) in
      if bool_decide (shared ≠ ∅) then score + 1 else score
    else score in
  Some score.

(** The body of the loop: [matches.append(b)] when the accept check
    passes, [matches] untouched otherwise. *)
Definition match_step (profile : Inquiry.t)
    (matches : list Benefit.t) (b : Benefit.t) : list Benefit.t :=
  match score_benefit profile b with
  | Some score => if score >=? 0 then matches ++ [b] else matches
  | None => matches
  end.

(** Lines 145-180: [matches = []; for b in benefits: ...; return matches]. *)
Definition match_catalog (profile : Inquiry.t)
    (benefits : list Benefit.t) : list Benefit.t :=
  fold_left (match_step profile) benefits [].

(** Whether the loop body appends [b]. *)
Definition accepted (profile : Inquiry.t) (b : Benefit.t) : bool :=
  match match_step profile [] b with
  | [] => false
  | _ :: _ => true
  end.
End Matcher.

(** ** The storage layer

    [main.py] imports [db], [create_document] and [get_documents] from the
    [database] module and calls pymongo's [count_documents] on the handle.
    A stored document is a benefit together with the identifier the store
    gave it. *)

Record Document := {
  _id : option N;
  fields : Benefit.t
}.

(** Ghost record of the reads and writes performed on the store. *)
Inductive Access :=
  | Read (collection : string)
  | Write (collection : string).

Record World := {
  db : option (gmap string (list Document));  (* [None]: not configured *)
  next_id : N;
  accesses : list Access
}.

Inductive exn :=
  | HTTPException (status_code : Z) (detail : string)
  | TypeError (message : string)
  | StorageUnavailable.

Inductive outcome (A : Type) :=
  | Returns (a : A)
  | Raises (e : exn).
Arguments Returns {A} a.
Arguments Raises {A} e.

(** A request handler: it reads and updates the world and either returns
    or raises; what it did before raising stays done. *)
Definition IO (A : Type) : Type := World → outcome A * World.

#[global] Instance IO_ret : MRet IO := λ A a w, (Returns a, w).

#[global] Instance IO_bind : MBind IO := λ A B k m w,
  match m w with
  | (Returns a, w') => k a w'
  | (Raises e, w') => (Raises e, w')
  end.

Definition raise {A} (e : exn) : IO A := λ w, (Raises e, w).

(** [for x in xs: acc = body(acc, x)] *)
Fixpoint for_each {A B} (xs : list B) (body : A → B → IO A) (acc : A) : IO A :=
  match xs with
  | [] => mret acc
  | x :: xs' => acc' ← body acc x; for_each xs' body acc'
  end.

(** [db is None] *)
Definition db_is_None : IO bool := λ w,
  (Returns (bool_decide (db w = None)), w).

Definition record (a : Access) (w : World) : World :=
  {| db := db w; next_id := next_id w; accesses := accesses w ++ [a] |}.

(** pymongo: [db[collection].count_documents({})]; subscripting [None]
    raises [TypeError]. *)
Definition count_documents (collection : string) : IO Z := λ w,
  match db w with
  | Some d => (Returns (Z.of_nat (length (d !!! collection))), record (Read collection) w)
  | None => (Raises (TypeError "'NoneType' object is not subscriptable"), w)
  end.

(** Modelled from the spec: [database.get_documents(collection, {}, limit)]
    is not among the sources.  "returning up to [limit] benefit records in
    storage-defined order"; "any endpoint depending on storage returns an
    error status (signal: storage unavailable) when the storage handle is
    not configured; this must propagate before attempting any read/write".
    The filter is always the empty one here and selects every document. *)
Definition get_documents (collection : string) (limit : option Z) : IO (list Document) := λ w,
  match db w with
  | None => (Raises StorageUnavailable, w)
  | Some d =>
      let docs := d !!! collection in
      (Returns (match limit with
                | Some n => take (Z.to_nat n) docs
                | None => docs
                end),
       record (Read collection) w)
  end.

(** Modelled from the spec: [database.create_document(collection, data)] is
    not among the sources.  "inserts exactly 4 fixed seed records": one call
    stores one record, after those already in the collection; an
    unconfigured handle is the same storage-unavailable error, raised before
    any write. *)
Definition create_document (collection : string) (data : Benefit.t) : IO N := λ w,
  match db w with
  | None => (Raises StorageUnavailable, w)
  | Some d =>
      let doc := {| _id := Some (next_id w); fields := data |} in
      (Returns (next_id w),
       {| db := Some (<[collection := (d !!! collection) ++ [doc]]> d);
          next_id := N.succ (next_id w);
          accesses := accesses w ++ [Write collection] |})
  end.

(** ** main.py: the endpoints *)

Record SeedResult := { inserted : Z }.

Definition not_configured : exn := HTTPException 500 "Database not configured".

Definition seed_data : list Benefit.t := [
  {| Benefit.name := "SNAP (Food Assistance)";
     Benefit.agency := Some "USDA";
     Benefit.description := "Monthly funds on an EBT card to help buy groceries.";
     Benefit.category := "food";
     Benefit.url := Some "https://www.fns.usda.gov/snap";
     Benefit.eligibility_notes := Some "Based on household size, income, and expenses.";
     Benefit.min_age := None;
     Benefit.max_age := None;
     Benefit.max_income := Some (float_of_Z 30000);
     Benefit.location := None;
     Benefit.requires_disability := None;
     Benefit.requires_veteran := None;
     Benefit.requires_dependents := None;
     Benefit.tags := Some ["low-income"; "household"] |};
  {| Benefit.name := "Medicaid";
     Benefit.agency := Some "State Medicaid Agency";
     Benefit.description := "Free or low-cost health coverage for eligible individuals.";
     Benefit.category := "healthcare";
     Benefit.url := Some "https://www.medicaid.gov/";
     Benefit.eligibility_notes := Some "Based on income, disability, pregnancy, and other factors.";
     Benefit.min_age := None;
     Benefit.max_age := None;
     Benefit.max_income := Some (float_of_Z 28000);
     Benefit.location := None;
     Benefit.requires_disability := None;
     Benefit.requires_veteran := None;
     Benefit.requires_dependents := None;
     Benefit.tags := Some ["health"; "low-income"] |};
  {| Benefit.name := "Pell Grant";
     Benefit.agency := Some "U.S. Department of Education";
     Benefit.description := "Grant to help pay for college, does not need to be repaid.";
     Benefit.category := "education";
     Benefit.url := Some "https://studentaid.gov/understand-aid/types/grants/pell";
     Benefit.eligibility_notes := Some "Undergraduate students with exceptional financial need.";
     Benefit.min_age := Some 16;
     Benefit.max_age := None;
     Benefit.max_income := Some (float_of_Z 60000);
     Benefit.location := None;
     Benefit.requires_disability := None;
     Benefit.requires_veteran := None;
     Benefit.requires_dependents := None;
     Benefit.tags := Some ["students"; "education"] |};
  {| Benefit.name := "Section 8 Housing Choice Voucher";
     Benefit.agency := Some "HUD";
     Benefit.description := "Rental assistance vouchers for low-income families.";
     Benefit.category := "housing";
     Benefit.url := Some "https://www.hud.gov/";
     Benefit.eligibility_notes := Some "Waitlists common; based on income and family size.";
     Benefit.min_age := None;
     Benefit.max_age := None;
     Benefit.max_income := Some (float_of_Z 35000);
     Benefit.location := None;
     Benefit.requires_disability := None;
     Benefit.requires_veteran := None;
     Benefit.requires_dependents := Some true;
     Benefit.tags := Some ["housing"; "family"] |}
].

(** The documents the seeding stores when the store hands out the
    identifiers [n], [n + 1], [n + 2], [n + 3]. *)
Definition seed_documents (n : N) : list Document :=
  zip_with (λ i item, {| _id := Some (n + i)%N; fields := item |})
    [0; 1; 2; 3]%N seed_data.

(** [POST /api/benefits/seed] *)
Definition seed_benefits : IO SeedResult :=
  unconfigured ← db_is_None;
  if (unconfigured : bool) then raise not_configured else
  existing ← count_documents "benefit";
  if existing >? 0 then mret {| inserted := 0 |} else
  inserted ← for_each seed_data
    (λ inserted item, _ ← create_document "benefit" item; mret (inserted + 1)) 0;
  mret {| inserted := inserted |}.

(** [GET /api/benefits]: every document loses its [_id] and is rebuilt as a
    [Benefit]. *)
Definition list_benefits (limit : option Z) : IO (list Benefit.t) :=
  docs ← get_documents "benefit" limit;
  mret (fold_left (λ cleaned d, cleaned ++ [fields d]) docs []).

(** The default of the [limit] query parameter, used by the bare call
    [list_benefits()] inside [match_benefits]. *)
Definition default_limit : option Z := Some 50.

(** [POST /api/match] *)
Definition match_benefits (lower : string → string) (profile : Inquiry.t)
    : IO (list Benefit.t) :=
  unconfigured ← db_is_None;
  if (unconfigured : bool) then raise not_configured else
  benefits ← list_benefits default_limit;
  mret (match_catalog lower profile benefits).

(** ** Field updates, to state "differs only in this field" *)

Definition profile_with_income (v : option float) (p : Inquiry.t) : Inquiry.t :=
  Inquiry.mk (Inquiry.age p) v (Inquiry.location p) (Inquiry.disability p)
    (Inquiry.veteran p) (Inquiry.dependents p) (Inquiry.employment_status p)
    (Inquiry.housing_status p) (Inquiry.tags p).

Definition profile_with_age (v : option Z) (p : Inquiry.t) : Inquiry.t :=
  Inquiry.mk v (Inquiry.income p) (Inquiry.location p) (Inquiry.disability p)
    (Inquiry.veteran p) (Inquiry.dependents p) (Inquiry.employment_status p)
    (Inquiry.housing_status p) (Inquiry.tags p).

Definition profile_with_location (v : option string) (p : Inquiry.t) : Inquiry.t :=
  Inquiry.mk (Inquiry.age p) (Inquiry.income p) v (Inquiry.disability p)
    (Inquiry.veteran p) (Inquiry.dependents p) (Inquiry.employment_status p)
    (Inquiry.housing_status p) (Inquiry.tags p).

Definition profile_with_tags (v : option (list string)) (p : Inquiry.t) : Inquiry.t :=
  Inquiry.mk (Inquiry.age p) (Inquiry.income p) (Inquiry.location p)
    (Inquiry.disability p) (Inquiry.veteran p) (Inquiry.dependents p)
    (Inquiry.employment_status p) (Inquiry.housing_status p) v.

Definition benefit_with_min_age (v : option Z) (b : Benefit.t) : Benefit.t :=
  Benefit.mk (Benefit.name b) (Benefit.agency b) (Benefit.description b)
    (Benefit.category b) (Benefit.url b) (Benefit.eligibility_notes b)
    v (Benefit.max_age b) (Benefit.max_income b) (Benefit.location b)
    (Benefit.requires_disability b) (Benefit.requires_veteran b)
    (Benefit.requires_dependents b) (Benefit.tags b).

Definition benefit_with_max_age (v : option Z) (b : Benefit.t) : Benefit.t :=
  Benefit.mk (Benefit.name b) (Benefit.agency b) (Benefit.description b)
    (Benefit.category b) (Benefit.url b) (Benefit.eligibility_notes b)
    (Benefit.min_age b) v (Benefit.max_income b) (Benefit.location b)
    (Benefit.requires_disability b) (Benefit.requires_veteran b)
    (Benefit.requires_dependents b) (Benefit.tags b).

Definition benefit_with_max_income (v : option float) (b : Benefit.t) : Benefit.t :=
  Benefit.mk (Benefit.name b) (Benefit.agency b) (Benefit.description b)
    (Benefit.category b) (Benefit.url b) (Benefit.eligibility_notes b)
    (Benefit.min_age b) (Benefit.max_age b) v (Benefit.location b)
    (Benefit.requires_disability b) (Benefit.requires_veteran b)
    (Benefit.requires_dependents b) (Benefit.tags b).

Definition benefit_with_location (v : option string) (b : Benefit.t) : Benefit.t :=
  Benefit.mk (Benefit.name b) (Benefit.agency b) (Benefit.description b)
    (Benefit.category b) (Benefit.url b) (Benefit.eligibility_notes b)
    (Benefit.min_age b) (Benefit.max_age b) (Benefit.max_income b) v
    (Benefit.requires_disability b) (Benefit.requires_veteran b)
    (Benefit.requires_dependents b) (Benefit.tags b).

Definition benefit_with_requires_dependents (v : option bool) (b : Benefit.t) : Benefit.t :=
  Benefit.mk (Benefit.name b) (Benefit.agency b) (Benefit.description b)
    (Benefit.category b) (Benefit.url b) (Benefit.eligibility_notes b)
    (Benefit.min_age b) (Benefit.max_age b) (Benefit.max_income b)
    (Benefit.location b) (Benefit.requires_disability b)
    (Benefit.requires_veteran b) v (Benefit.tags b).

Definition benefit_with_tags (v : option (list string)) (b : Benefit.t) : Benefit.t :=
  Benefit.mk (Benefit.name b) (Benefit.agency b) (Benefit.description b)
    (Benefit.category b) (Benefit.url b) (Benefit.eligibility_notes b)
    (Benefit.min_age b) (Benefit.max_age b) (Benefit.max_income b)
    (Benefit.location b) (Benefit.requires_disability b)
    (Benefit.requires_veteran b) (Benefit.requires_dependents b) v.

(** ** The hard rules, as the specification words them

    Rules 1 to 7 of the matcher's algorithm, each as a predicate of its own
    on one profile and one benefit, with no score and no order of
    evaluation.  A location counts as present when it is a non-empty
    string. *)

Module HardRules.
Section Rules.
Variable lower : string → string.

(** 1. both present and not [income <= max_income] *)
Definition income (p : Inquiry.t) (b : Benefit.t) : bool :=
  match Inquiry.income p, Benefit.max_income b with
  | Some i, Some m => negb (SFleb i m)
  | _, _ => false
  end.

(** 2. both present and [age < min_age] *)
Definition min_age (p : Inquiry.t) (b : Benefit.t) : bool :=
  match Inquiry.age p, Benefit.min_age b with
  | Some a, Some m => a <? m
  | _, _ => false
  end.

(** 3. both present and [age > max_age] *)
Definition max_age (p : Inquiry.t) (b : Benefit.t) : bool :=
  match Inquiry.age p, Benefit.max_age b with
  | Some a, Some m => m <? a
  | _, _ => false
  end.

(** 4. both present and different once lowered *)
Definition location (p : Inquiry.t) (b : Benefit.t) : bool :=
  match Inquiry.location p, Benefit.location b with
  | Some pl, Some bl =>
      negb (String.eqb pl "") && negb (String.eqb bl "")
      && negb (String.eqb (lower bl) (lower pl))
  | _, _ => false
  end.

(** 5. disability required and the profile's flag is not true *)
Definition disability (p : Inquiry.t) (b : Benefit.t) : bool :=
  match Benefit.requires_disability b with
  | Some true => match Inquiry.disability p with Some true => false | _ => true end
  | _ => false
  end.

(** 6. veteran required and the profile's flag is not true *)
Definition veteran (p : Inquiry.t) (b : Benefit.t) : bool :=
  match Benefit.requires_veteran b with
  | Some true => match Inquiry.veteran p with Some true => false | _ => true end
  | _ => false
  end.

(** 7. dependents required and the profile has none, or does not say *)
Definition dependents (p : Inquiry.t) (b : Benefit.t) : bool :=
  match Benefit.requires_dependents b with
  | Some true => match Inquiry.dependents p with Some d => d =? 0 | None => true end
  | _ => false
  end.

Definition excluded (p : Inquiry.t) (b : Benefit.t) : bool :=
  income p b || min_age p b || max_age p b || location p b
  || disability p b || veteran p b || dependents p b.
End Rules.
End HardRules.

(** What the two tag fields are replaced by when only the rest of a record
    is compared. *)
Definition profile_sans_tags (p : Inquiry.t) : Inquiry.t := profile_with_tags None p.
Definition benefit_sans_tags (b : Benefit.t) : Benefit.t := benefit_with_tags None b.

(** ** The score of a benefit that no rule excludes *)

Section Points.
Variable lower : string → string.

(** Tag overlap is worth one point and nothing else. *)
Definition tag_points (p : Inquiry.t) (b : Benefit.t) : Z :=
  if truthy_list (Inquiry.tags p) && truthy_list (Benefit.tags b) then
    if bool_decide (lowered_set lower (Inquiry.tags p)
                    ∩ lowered_set lower (Benefit.tags b) ≠ ∅)
    then 1 else 0
  else 0.

(** An income test that was made and passed is worth two. *)
Definition income_points (p : Inquiry.t) (b : Benefit.t) : Z :=
  match Inquiry.income p, Benefit.max_income b with
  | Some _, Some _ => 2
  | _, _ => 0
  end.
End Points.

(** ** Sample profiles and benefits *)

Module Sample.
(** [Inquiry()]: nothing stated, and the default empty tag list. *)
Definition nobody : Inquiry.t :=
  Inquiry.mk None None None None None None None None (Some []).

(** [Benefit(name=n, description="", category="")]: no eligibility signal. *)
Definition open_to_all (n : string) : Benefit.t :=
  Benefit.mk n None "" "" None None None None None None None None None (Some []).

(** The example scenario of the specification. *)
Definition snap : Benefit.t :=
  benefit_with_max_income (Some (float_of_Z 30000)) (open_to_all "SNAP").
Definition pell : Benefit.t :=
  benefit_with_min_age (Some 16)
    (benefit_with_max_income (Some (float_of_Z 60000)) (open_to_all "Pell Grant")).
Definition student (income : Z) : Inquiry.t :=
  profile_with_age (Some 20) (profile_with_income (Some (float_of_Z income)) nobody).

Definition aged (a : Z) : Inquiry.t := profile_with_age (Some a) nobody.
Definition adults_only : Benefit.t := benefit_with_min_age (Some 18) (open_to_all "18+").
Definition working_age : Benefit.t := benefit_with_max_age (Some 65) (open_to_all "65-").

Definition living_in (l : string) : Inquiry.t := profile_with_location (Some l) nobody.
Definition californian : Benefit.t := benefit_with_location (Some "CA") (open_to_all "CA only").
Definition nowhere : Benefit.t := benefit_with_location (Some "") (open_to_all "blank region").

Definition for_parents : Benefit.t :=
  benefit_with_requires_dependents (Some true) (open_to_all "parents").
Definition for_veterans : Benefit.t :=
  Benefit.mk "veterans" None "" "" None None None None None None None (Some true) None (Some []).
Definition for_disabled : Benefit.t :=
  Benefit.mk "disability" None "" "" None None None None None None (Some true) None None (Some []).
Definition with_dependents (d : option Z) : Inquiry.t :=
  Inquiry.mk None None None None None d None None (Some []).

Definition unconfigured : World := {| db := None; next_id := 0; accesses := [] |}.
Definition empty_store : World := {| db := Some ∅; next_id := 0; accesses := [] |}.
End Sample.


(** ** More field updates *)

Definition profile_with_disability (v : option bool) (p : Inquiry.t) : Inquiry.t :=
  Inquiry.mk (Inquiry.age p) (Inquiry.income p) (Inquiry.location p) v
    (Inquiry.veteran p) (Inquiry.dependents p) (Inquiry.employment_status p)
    (Inquiry.housing_status p) (Inquiry.tags p).

Definition profile_with_veteran (v : option bool) (p : Inquiry.t) : Inquiry.t :=
  Inquiry.mk (Inquiry.age p) (Inquiry.income p) (Inquiry.location p)
    (Inquiry.disability p) v (Inquiry.dependents p) (Inquiry.employment_status p)
    (Inquiry.housing_status p) (Inquiry.tags p).

Definition profile_with_dependents (v : option Z) (p : Inquiry.t) : Inquiry.t :=
  Inquiry.mk (Inquiry.age p) (Inquiry.income p) (Inquiry.location p)
    (Inquiry.disability p) (Inquiry.veteran p) v (Inquiry.employment_status p)
    (Inquiry.housing_status p) (Inquiry.tags p).

Definition benefit_with_flags (disability veteran dependents : option bool)
    (b : Benefit.t) : Benefit.t :=
  Benefit.mk (Benefit.name b) (Benefit.agency b) (Benefit.description b)
    (Benefit.category b) (Benefit.url b) (Benefit.eligibility_notes b)
    (Benefit.min_age b) (Benefit.max_age b) (Benefit.max_income b)
    (Benefit.location b) disability veteran dependents (Benefit.tags b).

(** The two profile fields the matcher is handed and never reads. *)
Definition profile_with_statuses (employment housing : option string)
    (p : Inquiry.t) : Inquiry.t :=
  Inquiry.mk (Inquiry.age p) (Inquiry.income p) (Inquiry.location p)
    (Inquiry.disability p) (Inquiry.veteran p) (Inquiry.dependents p)
    employment housing (Inquiry.tags p).

(** The identity and presentation fields of a benefit. *)
Definition benefit_with_presentation
    (name : string) (agency : option string) (description category : string)
    (url eligibility_notes : option string) (b : Benefit.t) : Benefit.t :=
  Benefit.mk name agency description category url eligibility_notes
    (Benefit.min_age b) (Benefit.max_age b) (Benefit.max_income b)
    (Benefit.location b) (Benefit.requires_disability b)
    (Benefit.requires_veteran b) (Benefit.requires_dependents b) (Benefit.tags b).

(** ** schemas.py: the field constraints

    [Field(None, ge=lo, le=hi)] on an optional field: absent passes, a value
    must satisfy [lo <= value <= hi].  On a float, [ge=0] is the comparison
    [value >= 0], which NaN fails. *)

Definition ge_le (lo hi : Z) (v : option Z) : bool :=
  match v with
  | Some x => (lo <=? x) && (x <=? hi)
  | None => true
  end.

Definition ge_int (lo : Z) (v : option Z) : bool :=
  match v with
  | Some x => lo <=? x
  | None => true
  end.

Definition ge_zero_float (v : option float) : bool :=
  match v with
  | Some x => SFleb (float_of_Z 0) x
  | None => true
  end.

(** [Benefit]: [min_age] and [max_age] in 0..120, [max_income >= 0]. *)
Definition valid_benefit (b : Benefit.t) : bool :=
  ge_le 0 120 (Benefit.min_age b)
  && ge_le 0 120 (Benefit.max_age b)
  && ge_zero_float (Benefit.max_income b).

(** [Inquiry]: [age] in 0..120, [income >= 0], [dependents >= 0]. *)
Definition valid_inquiry (p : Inquiry.t) : bool :=
  ge_le 0 120 (Inquiry.age p)
  && ge_zero_float (Inquiry.income p)
  && ge_int 0 (Inquiry.dependents p).

(** ** main.py: the diagnostic endpoint [GET /test]

    What [test_database] looks at: the handle, if any, with its [name]
    attribute, if any, and what [list_collection_names()] does on it, a
    list of names or an exception with its message; and the process
    environment.  [str(e)[:50]] is a parameter, as [str.lower] is. *)

Module Handle.
Record t := mk {
  name : option string;
  list_collection_names : string + list string
}.
End Handle.

Record TestResponse := {
  backend : string;
  database : string;
  database_url : option string;
  database_name : option string;
  connection_status : string;
  collections : list string
}.

Definition with_database (v : string) (r : TestResponse) : TestResponse :=
  {| backend := backend r; database := v; database_url := database_url r;
     database_name := database_name r; connection_status := connection_status r;
     collections := collections r |}.

Definition with_database_url (v : option string) (r : TestResponse) : TestResponse :=
  {| backend := backend r; database := database r; database_url := v;
     database_name := database_name r; connection_status := connection_status r;
     collections := collections r |}.

Definition with_database_name (v : option string) (r : TestResponse) : TestResponse :=
  {| backend := backend r; database := database r; database_url := database_url r;
     database_name := v; connection_status := connection_status r;
     collections := collections r |}.

Definition with_connection_status (v : string) (r : TestResponse) : TestResponse :=
  {| backend := backend r; database := database r; database_url := database_url r;
     database_name := database_name r; connection_status := v;
     collections := collections r |}.

Definition with_collections (v : list string) (r : TestResponse) : TestResponse :=
  {| backend := backend r; database := database r; database_url := database_url r;
     database_name := database_name r; connection_status := connection_status r;
     collections := v |}.

Section Diagnostics.
Variable first_50 : string → string.

(** Lines 29-58.  Nothing in the outer [try] raises past the inner one, so
    the outer handler has no case here. *)
Definition test_database (handle : option Handle.t)
    (environ : gmap string string) : TestResponse :=
  let response :=
    {| backend := "✅ Running";
       database := "❌ Not Available";
       database_url := None;
       database_name := None;
       connection_status := "Not Connected";
       collections := [] |} in
  let response :=
    match handle with
    | Some h =>
        let response := with_database "✅ Available" response in
        let response := with_database_url (Some "✅ Configured") response in
        let response :=
          with_database_name
            (Some (match Handle.name h with
                   | Some n => n
                   | None => "✅ Connected"
                   end)) response in
        let response := with_connection_status "Connected" response in
        match Handle.list_collection_names h with
        | inr names =>
            let response := with_collections (take 10 names) response in
            with_database "✅ Connected & Working" response
        | inl e =>
            with_database
              (String.append "⚠️  Connected but Error: " (first_50 e)) response
        end
    | None => with_database "⚠️  Available but not initialized" response
    end in
  let response :=
    with_database_url
      (Some (if truthy_str (environ !! "DATABASE_URL")
             then "✅ Set" else "❌ Not Set")) response in
  let response :=
    with_database_name
      (Some (if truthy_str (environ !! "DATABASE_NAME")
             then "✅ Set" else "❌ Not Set")) response in
  response.
End Diagnostics.

(** ** More samples *)

Module Sample2.
(** Validation does not compare the two bounds with each other. *)
Definition crossed : Benefit.t :=
  benefit_with_min_age (Some 65) (benefit_with_max_age (Some 18) (Sample.open_to_all "crossed")).

Definition tagged (ts : list string) : Inquiry.t :=
  profile_with_tags (Some ts) Sample.nobody.

Definition tagged_benefit (ts : list string) : Benefit.t :=
  benefit_with_tags (Some ts) (Sample.open_to_all "tagged").

Definition adults_of_working_age : Benefit.t :=
  benefit_with_min_age (Some 18) Sample.working_age.

Definition many_names : list string :=
  ["a"; "b"; "c"; "d"; "e"; "f"; "g"; "h"; "i"; "j"; "k"; "l"].

Definition healthy : Handle.t := Handle.mk (Some "benefits") (inr many_names).
Definition broken : Handle.t := Handle.mk (Some "benefits") (inl "timed out").

Definition configured_env : gmap string string :=
  {[ "DATABASE_URL" := "mongodb://localhost"; "DATABASE_NAME" := "benefits" ]}.

End Sample2.

(** ** Floating-point comparison *)

Lemma SFcompare_swap (x y : float) :
  SFcompare y x = CompOpp <$> SFcompare x y.
Proof.
  destruct x as [sx|sx| |sx mx ex], y as [sy|sy| |sy my ey]; simpl;
    try reflexivity;
    try (destruct sx; reflexivity); try (destruct sy; reflexivity);
    try (destruct sx, sy; reflexivity).
  pose proof (Pos.compare_cont_antisym mx my Eq) as Hm; simpl in Hm.
  destruct sx, sy; simpl; try reflexivity; f_equal;
    rewrite (Z.compare_antisym ex ey);
    destruct (ex ?= ey); simpl; try reflexivity;
    rewrite <- Hm;
    destruct (Pos.compare_cont Eq mx my); reflexivity.
Qed.

(** [a > b] excludes [a <= b], NaN included. *)
Lemma SFltb_not_SFleb (x y : float) : SFltb y x = true → SFleb x y = false.
Proof.
  unfold SFltb, SFleb. rewrite (SFcompare_swap x y).
  destruct (SFcompare x y) as [[]|]; simpl; congruence.
Qed.

(** ** The loop as a filter *)

Section MatcherFacts.
Variable lower : string → string.
Implicit Types (p : Inquiry.t) (b : Benefit.t) (cat : list Benefit.t).

Lemma accepted_score p b :
  accepted lower p b =
  match score_benefit lower p b with
  | Some score => score >=? 0
  | None => false
  end.
Proof.
  unfold accepted, match_step.
  destruct (score_benefit lower p b) as [score|]; [|reflexivity].
  destruct (score >=? 0); reflexivity.
Qed.

Lemma match_step_app p b (matches : list Benefit.t) :
  match_step lower p matches b =
  matches ++ (if accepted lower p b then [b] else []).
Proof.
  rewrite accepted_score. unfold match_step.
  destruct (score_benefit lower p b) as [score|].
  - destruct (score >=? 0); [reflexivity | by rewrite app_nil_r].
  - by rewrite app_nil_r.
Qed.

Lemma fold_match_step p cat (matches : list Benefit.t) :
  fold_left (match_step lower p) cat matches =
  matches ++ List.filter (accepted lower p) cat.
Proof.
  revert matches. induction cat as [|b cat IH]; intros matches; simpl.
  - by rewrite app_nil_r.
  - rewrite IH, match_step_app, <- app_assoc.
    destruct (accepted lower p b); reflexivity.
Qed.

Lemma match_catalog_filter p cat :
  match_catalog lower p cat = List.filter (accepted lower p) cat.
Proof. unfold match_catalog. by rewrite fold_match_step. Qed.

Lemma elem_of_match_catalog p b cat :
  b ∈ match_catalog lower p cat ↔ b ∈ cat ∧ accepted lower p b = true.
Proof.
  rewrite match_catalog_filter, !list_elem_of_In. apply filter_In.
Qed.

(** Settles the rule at the head of the loop body against its worded
    counterpart [R], whose equality with the code's test [tac] proves. *)
Ltac settle_rule R tac :=
  lazymatch goal with
  | |- (if ?c then None else _) = _ =>
      let H := fresh "H" in
      assert (H : c = R) by tac;
      rewrite H; clear H;
      destruct R; cbn [orb]; [reflexivity|]
  end.

Lemma score_benefit_rules p b :
  score_benefit lower p b =
  if HardRules.excluded lower p b then None
  else Some (income_points p b + tag_points lower p b).
Proof.
  unfold score_benefit, HardRules.excluded, income_points, tag_points.
  generalize (bool_decide (lowered_set lower (Inquiry.tags p)
                    ∩ lowered_set lower (Benefit.tags b) ≠ ∅)).
  generalize (truthy_list (Inquiry.tags p) && truthy_list (Benefit.tags b)).
  intros tl ov. unfold HardRules.income.
  destruct (Inquiry.income p) as [i|], (Benefit.max_income b) as [m|];
    cbn [mbind option_bind negb orb];
    try (destruct (SFleb i m); cbn [mbind option_bind negb orb];
         [|reflexivity]).
  all: settle_rule (HardRules.min_age p b)
         ltac:(unfold HardRules.min_age;
               destruct (Benefit.min_age b), (Inquiry.age p); reflexivity).
  all: settle_rule (HardRules.max_age p b)
         ltac:(unfold HardRules.max_age;
               destruct (Benefit.max_age b), (Inquiry.age p);
               try reflexivity; apply Z.gtb_ltb).
  all: settle_rule (HardRules.location lower p b)
         ltac:(unfold HardRules.location, truthy_str;
               destruct (Benefit.location b) as [bl|],
                 (Inquiry.location p) as [pl|];
               rewrite ?andb_false_r; try reflexivity;
               destruct (String.eqb pl ""), (String.eqb bl ""); reflexivity).
  all: settle_rule (HardRules.disability p b)
         ltac:(unfold HardRules.disability, truthy_bool;
               destruct (Benefit.requires_disability b) as [[]|],
                 (Inquiry.disability p) as [[]|]; reflexivity).
  all: settle_rule (HardRules.veteran p b)
         ltac:(unfold HardRules.veteran, truthy_bool;
               destruct (Benefit.requires_veteran b) as [[]|],
                 (Inquiry.veteran p) as [[]|]; reflexivity).
  all: settle_rule (HardRules.dependents p b)
         ltac:(unfold HardRules.dependents, truthy_bool;
               destruct (Benefit.requires_dependents b) as [[]|],
                 (Inquiry.dependents p); reflexivity).
  all: destruct tl, ov; reflexivity.
Qed.

Lemma points_nonneg p b : 0 ≤ income_points p b + tag_points lower p b.
Proof.
  unfold income_points, tag_points.
  destruct (Inquiry.income p), (Benefit.max_income b),
    (truthy_list (Inquiry.tags p) && truthy_list (Benefit.tags b));
    try case_bool_decide; lia.
Qed.

Lemma score_benefit_nonneg p b score :
  score_benefit lower p b = Some score → 0 ≤ score.
Proof.
  rewrite score_benefit_rules.
  destruct (HardRules.excluded lower p b); [discriminate|].
  intros [= <-]. apply points_nonneg.
Qed.

Lemma accepted_rules p b :
  accepted lower p b = negb (HardRules.excluded lower p b).
Proof.
  rewrite accepted_score, score_benefit_rules.
  destruct (HardRules.excluded lower p b); [reflexivity|].
  pose proof (points_nonneg p b). simpl. apply Z.geb_le. lia.
Qed.

Lemma excluded_never_matched p b cat :
  HardRules.excluded lower p b = true → b ∉ match_catalog lower p cat.
Proof.
  intros He [_ Ha]%elem_of_match_catalog.
  rewrite accepted_rules, He in Ha. discriminate.
Qed.

(** Acceptance depends on the seven rules only. *)
Lemma accepted_same_rules p b p' b' :
  HardRules.income p b = HardRules.income p' b' →
  HardRules.min_age p b = HardRules.min_age p' b' →
  HardRules.max_age p b = HardRules.max_age p' b' →
  HardRules.location lower p b = HardRules.location lower p' b' →
  HardRules.disability p b = HardRules.disability p' b' →
  HardRules.veteran p b = HardRules.veteran p' b' →
  HardRules.dependents p b = HardRules.dependents p' b' →
  accepted lower p b = accepted lower p' b'.
Proof.
  intros. rewrite !accepted_rules. unfold HardRules.excluded. congruence.
Qed.

Lemma accepted_sans_tags p b :
  accepted lower p b = accepted lower (profile_sans_tags p) (benefit_sans_tags b).
Proof. apply accepted_same_rules; reflexivity. Qed.

Lemma cons_eq_both {A} (x y : A) (l k : list A) :
  x :: l = y :: k → x = y ∧ l = k.
Proof. intros H. by injection H. Qed.

Lemma filter_sublist (f : Benefit.t → bool) cat : sublist (List.filter f cat) cat.
Proof.
  induction cat as [|b cat IH]; simpl.
  - constructor.
  - destruct (f b); by constructor.
Qed.
End MatcherFacts.

(** ** The matcher's results *)

Section MatcherClaims.
Variable lower : string → string.
Implicit Types (p : Inquiry.t) (b : Benefit.t) (cat : list Benefit.t).

(** C1. For every profile and catalog, matching returns exactly the
    benefits that none of the seven hard rules excludes: a benefit
    reaches the accept check exactly when no rule excludes it, the score
    it arrives with passes [score >= 0], and so the result is the catalog
    filtered by the rules alone, whatever the scores are. *)
Theorem C1_match_is_the_hard_rule_filter p cat :
  (∀ b, is_Some (score_benefit lower p b) ↔ HardRules.excluded lower p b = false)
  ∧ (∀ b score, score_benefit lower p b = Some score → (score >=? 0) = true)
  ∧ match_catalog lower p cat
    = List.filter (λ b, negb (HardRules.excluded lower p b)) cat.
Proof.
  split; [|split].
  - intros b. rewrite score_benefit_rules.
    destruct (HardRules.excluded lower p b); split;
      intros H; try done; by inversion H.
  - intros b score H%score_benefit_nonneg. apply Z.geb_le. lia.
  - rewrite match_catalog_filter. apply filter_ext.
    intros b. apply accepted_rules.
Qed.

(** C8. For every profile and catalog, the match result is a subsequence
    of the catalog: its elements are elements of the catalog, in the
    catalog's order, none repeated more often than there; a catalog
    without repetition gives a result without repetition. *)
Theorem C8_match_is_a_subsequence p cat :
  sublist (match_catalog lower p cat) cat
  ∧ (∀ b, b ∈ match_catalog lower p cat → b ∈ cat)
  ∧ (NoDup cat → NoDup (match_catalog lower p cat)).
Proof.
  assert (Hsub : sublist (match_catalog lower p cat) cat).
  { rewrite match_catalog_filter. apply filter_sublist. }
  split; [exact Hsub|split].
  - intros b Hb. by eapply elem_of_sublist.
  - intros Hnd. by eapply sublist_NoDup.
Qed.

(** C2. When the profile states an income and the benefit a cap:
    an income above the cap keeps the benefit out of every match result,
    whatever the other fields are; an income at or below the cap (the cap
    itself included) leaves acceptance as it would be without the income,
    or without the cap.  When either is absent the same holds. *)
Theorem C2_income_rule p b :
  (∀ income cap,
      Inquiry.income p = Some income → Benefit.max_income b = Some cap →
      SFltb cap income = true →
      ∀ cat, b ∉ match_catalog lower p cat)
  ∧ (∀ income cap,
      Inquiry.income p = Some income → Benefit.max_income b = Some cap →
      SFleb income cap = true →
      accepted lower p b = accepted lower (profile_with_income None p) b
      ∧ accepted lower p b = accepted lower p (benefit_with_max_income None b))
  ∧ (Inquiry.income p = None ∨ Benefit.max_income b = None →
      accepted lower p b = accepted lower (profile_with_income None p) b
      ∧ accepted lower p b = accepted lower p (benefit_with_max_income None b)).
Proof.
  split; [|split].
  - intros income cap Hi Hc Hgt cat. apply excluded_never_matched.
    unfold HardRules.excluded, HardRules.income.
    by rewrite Hi, Hc, (SFltb_not_SFleb _ _ Hgt).
  - intros income cap Hi Hc Hle.
    split; apply accepted_same_rules; try reflexivity;
      unfold HardRules.income; simpl; rewrite Hi, ?Hc, ?Hle; reflexivity.
  - intros Habsent.
    split; apply accepted_same_rules; try reflexivity;
      unfold HardRules.income; simpl;
      destruct Habsent as [-> | ->]; try reflexivity;
      by destruct (Inquiry.income p).
Qed.

(** C4. Two runs of the matcher whose profiles differ only in their tags
    and whose catalogs differ only in the tags of their benefits accept
    the same positions of the catalog, and return the same benefits in
    the same order, tags aside. *)
Theorem C4_tags_never_change_the_result p1 p2 cat1 cat2 :
  profile_sans_tags p1 = profile_sans_tags p2 →
  benefit_sans_tags <$> cat1 = benefit_sans_tags <$> cat2 →
  accepted lower p1 <$> cat1 = accepted lower p2 <$> cat2
  ∧ benefit_sans_tags <$> match_catalog lower p1 cat1
    = benefit_sans_tags <$> match_catalog lower p2 cat2.
Proof.
  intros Hp. rewrite !match_catalog_filter.
  revert cat2. induction cat1 as [|b1 cat1 IH]; intros [|b2 cat2] Hcat;
    try discriminate; [done|].
  apply cons_eq_both in Hcat as [Hb Hcat]. destruct (IH _ Hcat) as [IHa IHm].
  assert (Ha : accepted lower p1 b1 = accepted lower p2 b2).
  { rewrite (accepted_sans_tags lower p1 b1), (accepted_sans_tags lower p2 b2).
    by rewrite Hp, Hb. }
  split.
  - rewrite !fmap_cons. by rewrite Ha, IHa.
  - cbn [List.filter]. rewrite Ha.
    destruct (accepted lower p2 b2); [|done].
    rewrite !fmap_cons. by rewrite Hb, IHm.
Qed.

(** C5. Age bounds are inclusive.  With the profile's age and the bound
    both present: an age below [min_age] (17 against 18) keeps the
    benefit out of every result and an age at or above it (18 against 18)
    leaves acceptance as it is without the bound; an age above [max_age]
    (66 against 65) keeps it out and an age at or below it (65 against
    65) leaves acceptance as it is without the bound.  Without an age in
    the profile, or without the bound, the bound changes nothing.  A
    benefit whose only signal is [min_age=18] is returned for age 18 and
    not for 17; one whose only signal is [max_age=65] is returned for 65
    and not for 66. *)
Theorem C5_age_bounds_are_inclusive p b :
  (∀ a m, Inquiry.age p = Some a → Benefit.min_age b = Some m → a < m →
      ∀ cat, b ∉ match_catalog lower p cat)
  ∧ (∀ a m, Inquiry.age p = Some a → Benefit.min_age b = Some m → m ≤ a →
      accepted lower p b = accepted lower p (benefit_with_min_age None b))
  ∧ (∀ a m, Inquiry.age p = Some a → Benefit.max_age b = Some m → m < a →
      ∀ cat, b ∉ match_catalog lower p cat)
  ∧ (∀ a m, Inquiry.age p = Some a → Benefit.max_age b = Some m → a ≤ m →
      accepted lower p b = accepted lower p (benefit_with_max_age None b))
  ∧ (Inquiry.age p = None ∨ Benefit.min_age b = None →
      accepted lower p b = accepted lower p (benefit_with_min_age None b))
  ∧ (Inquiry.age p = None ∨ Benefit.max_age b = None →
      accepted lower p b = accepted lower p (benefit_with_max_age None b))
  ∧ match_catalog lower (Sample.aged 17) [Sample.adults_only] = []
  ∧ match_catalog lower (Sample.aged 18) [Sample.adults_only] = [Sample.adults_only]
  ∧ match_catalog lower (Sample.aged 66) [Sample.working_age] = []
  ∧ match_catalog lower (Sample.aged 65) [Sample.working_age] = [Sample.working_age].
Proof.
  repeat split; try reflexivity.
  - intros a m Ha Hm Hlt cat. apply excluded_never_matched.
    unfold HardRules.excluded, HardRules.min_age. rewrite Ha, Hm.
    apply Z.ltb_lt in Hlt as ->. by rewrite orb_true_r.
  - intros a m Ha Hm Hle. apply accepted_same_rules; try reflexivity.
    unfold HardRules.min_age; simpl. rewrite Ha, Hm.
    by apply Z.ltb_ge.
  - intros a m Ha Hm Hlt cat. apply excluded_never_matched.
    unfold HardRules.excluded, HardRules.max_age. rewrite Ha, Hm.
    apply Z.ltb_lt in Hlt as ->. by rewrite orb_true_r.
  - intros a m Ha Hm Hle. apply accepted_same_rules; try reflexivity.
    unfold HardRules.max_age; simpl. rewrite Ha, Hm.
    by apply Z.ltb_ge.
  - intros Habsent. apply accepted_same_rules; try reflexivity.
    unfold HardRules.min_age; simpl.
    destruct Habsent as [-> | ->]; [reflexivity|].
    by destruct (Inquiry.age p).
  - intros Habsent. apply accepted_same_rules; try reflexivity.
    unfold HardRules.max_age; simpl.
    destruct Habsent as [-> | ->]; [reflexivity|].
    by destruct (Inquiry.age p).
Qed.

(** C6. A benefit that requires disability is kept out of every result
    for a profile whose disability flag is not true; likewise for
    veterans; one that requires dependents is kept out when the profile
    gives no number of dependents or gives zero, and with one dependent
    or more acceptance is what it is without the requirement: a benefit
    whose only signal is the dependents requirement is returned for one
    dependent and not for zero or for none stated. *)
Theorem C6_flag_requirements p b :
  (Benefit.requires_disability b = Some true →
     Inquiry.disability p ≠ Some true →
     ∀ cat, b ∉ match_catalog lower p cat)
  ∧ (Benefit.requires_veteran b = Some true →
     Inquiry.veteran p ≠ Some true →
     ∀ cat, b ∉ match_catalog lower p cat)
  ∧ (Benefit.requires_dependents b = Some true →
     Inquiry.dependents p = None ∨ Inquiry.dependents p = Some 0 →
     ∀ cat, b ∉ match_catalog lower p cat)
  ∧ (∀ d, Benefit.requires_dependents b = Some true →
     Inquiry.dependents p = Some d → 1 ≤ d →
     accepted lower p b
     = accepted lower p (benefit_with_requires_dependents None b))
  ∧ match_catalog lower (Sample.with_dependents None) [Sample.for_parents] = []
  ∧ match_catalog lower (Sample.with_dependents (Some 0)) [Sample.for_parents] = []
  ∧ match_catalog lower (Sample.with_dependents (Some 1)) [Sample.for_parents]
    = [Sample.for_parents].
Proof.
  repeat split.
  - intros Hr Hp cat. apply excluded_never_matched.
    unfold HardRules.excluded, HardRules.disability. rewrite Hr.
    destruct (Inquiry.disability p) as [[]|]; try done;
      by rewrite !orb_true_r.
  - intros Hr Hp cat. apply excluded_never_matched.
    unfold HardRules.excluded, HardRules.veteran. rewrite Hr.
    destruct (Inquiry.veteran p) as [[]|]; try done;
      by rewrite !orb_true_r.
  - intros Hr Hp cat. apply excluded_never_matched.
    unfold HardRules.excluded, HardRules.dependents. rewrite Hr.
    destruct Hp as [-> | ->]; by rewrite !orb_true_r.
  - intros d Hr Hd Hpos. apply accepted_same_rules; try reflexivity.
    unfold HardRules.dependents; simpl. rewrite Hr, Hd.
    apply Z.eqb_neq. lia.
Qed.

(** C10. An empty location is no location: when the benefit's location
    or the profile's is the empty string, acceptance is what it is
    without the benefit's location, and without the profile's. *)
Theorem C10_empty_location_is_absent p b :
  Benefit.location b = Some "" ∨ Inquiry.location p = Some "" →
  accepted lower p b = accepted lower p (benefit_with_location None b)
  ∧ accepted lower p b = accepted lower (profile_with_location None p) b.
Proof.
  intros Hempty.
  split; apply accepted_same_rules; try reflexivity;
    unfold HardRules.location; simpl;
    destruct Hempty as [-> | ->];
    destruct (Inquiry.location p) as [pl|], (Benefit.location b) as [bl|];
    try reflexivity; simpl;
    rewrite ?andb_false_r; reflexivity.
Qed.

(** The location rule for an arbitrary lowering function. *)
Lemma location_rule p b :
  (∀ bl pl, Benefit.location b = Some bl → Inquiry.location p = Some pl →
      lower bl = lower pl →
      accepted lower p b = accepted lower p (benefit_with_location None b))
  ∧ (∀ bl pl, Benefit.location b = Some bl → Inquiry.location p = Some pl →
      bl ≠ "" → pl ≠ "" → lower bl ≠ lower pl →
      ∀ cat, b ∉ match_catalog lower p cat)
  ∧ (Benefit.location b = None ∨ Inquiry.location p = None →
      accepted lower p b = accepted lower p (benefit_with_location None b)).
Proof.
  repeat split.
  - intros bl pl Hb Hp Heq. apply accepted_same_rules; try reflexivity.
    unfold HardRules.location; simpl. rewrite Hb, Hp, Heq, String.eqb_refl.
    simpl. by rewrite andb_false_r.
  - intros bl pl Hb Hp Hbl Hpl Hne cat. apply excluded_never_matched.
    unfold HardRules.excluded, HardRules.location. rewrite Hb, Hp.
    apply String.eqb_neq in Hbl as ->, Hpl as ->, Hne as ->.
    simpl. by rewrite !orb_true_r.
  - intros Habsent. apply accepted_same_rules; try reflexivity.
    unfold HardRules.location; simpl.
    destruct Habsent as [-> | ->]; [|reflexivity].
    by destruct (Inquiry.location p).
Qed.
End MatcherClaims.

(** C7. The location rule compares the lowered strings, and only when both
    are present.  For a benefit restricted to ["CA"]: a profile in ["ca"]
    has the acceptance it would have without the restriction, a profile in
    ["NY"] never gets the benefit; a benefit without a location, or a
    profile without one, is accepted as if the benefit had none.  So a
    benefit whose only signal is [location="CA"] is returned for ["ca"],
    for ["CA"] and for a profile with no location, and not for ["NY"]. *)
Theorem C7_location_rule (p : Inquiry.t) (b : Benefit.t) :
  (Benefit.location b = Some "CA" → Inquiry.location p = Some "ca" →
     accepted ascii_lower p b = accepted ascii_lower p (benefit_with_location None b))
  ∧ (Benefit.location b = Some "CA" → Inquiry.location p = Some "NY" →
     ∀ cat, b ∉ match_catalog ascii_lower p cat)
  ∧ (∀ lower, Benefit.location b = None ∨ Inquiry.location p = None →
     accepted lower p b = accepted lower p (benefit_with_location None b))
  ∧ match_catalog ascii_lower (Sample.living_in "ca") [Sample.californian]
    = [Sample.californian]
  ∧ match_catalog ascii_lower (Sample.living_in "CA") [Sample.californian]
    = [Sample.californian]
  ∧ match_catalog ascii_lower (Sample.living_in "NY") [Sample.californian] = []
  ∧ match_catalog ascii_lower Sample.nobody [Sample.californian]
    = [Sample.californian]
  ∧ match_catalog ascii_lower (Sample.living_in "NY") [Sample.open_to_all "any"]
    = [Sample.open_to_all "any"].
Proof.
  repeat split; try reflexivity.
  - intros Hb Hp.
    by apply (proj1 (location_rule ascii_lower p b) "CA" "ca").
  - intros Hb Hp.
    by apply (proj1 (proj2 (location_rule ascii_lower p b)) "CA" "NY").
  - intros lower. apply location_rule.
Qed.

(** ** The endpoints and the store *)

Section StorageFacts.
Implicit Types (w : World) (d : gmap string (list Document)).

Lemma bind_run {A B} (m : IO A) (k : A → IO B) w :
  (m ≫= k) w =
  match m w with
  | (Returns a, w') => k a w'
  | (Raises e, w') => (Raises e, w')
  end.
Proof. reflexivity. Qed.

Lemma ret_run {A} (a : A) w : (mret a : IO A) w = (Returns a, w).
Proof. reflexivity. Qed.

Lemma db_is_None_run w :
  db_is_None w = (Returns (bool_decide (db w = None)), w).
Proof. reflexivity. Qed.

Lemma create_document_run collection data w d :
  db w = Some d →
  create_document collection data w =
  (Returns (next_id w),
   {| db := Some (<[collection :=
                     d !!! collection ++ [{| _id := Some (next_id w); fields := data |}]]> d);
      next_id := N.succ (next_id w);
      accesses := accesses w ++ [Write collection] |}).
Proof. intros Hd. unfold create_document. by rewrite Hd. Qed.

(** Seeding a configured store whose catalog is not empty. *)
Lemma seed_benefits_nonempty w d :
  db w = Some d → d !!! "benefit" ≠ [] →
  seed_benefits w = (Returns {| inserted := 0 |}, record (Read "benefit") w).
Proof.
  intros Hd Hne. unfold seed_benefits.
  rewrite bind_run, db_is_None_run, Hd, bool_decide_false by done.
  rewrite bind_run. unfold count_documents. rewrite Hd.
  destruct (d !!! "benefit") as [|doc docs]; [done|].
  reflexivity.
Qed.

(** Seeding a configured store whose catalog is empty. *)
Lemma seed_benefits_empty w d :
  db w = Some d → d !!! "benefit" = [] →
  seed_benefits w =
  (Returns {| inserted := 4 |},
   {| db := Some (<["benefit" := seed_documents (next_id w)]> d);
      next_id := (next_id w + 4)%N;
      accesses := accesses w ++ [Read "benefit"; Write "benefit"; Write "benefit";
                                 Write "benefit"; Write "benefit"] |}).
Proof.
  intros Hd Hempty. destruct w as [dbw n acc]. simpl in Hd. subst dbw.
  unfold seed_benefits.
  rewrite bind_run, db_is_None_run. cbn [db].
  rewrite bool_decide_false by done.
  rewrite bind_run. unfold count_documents. cbn [db]. rewrite Hempty.
  change (Z.of_nat (length []) >? 0) with false. cbv iota.
  unfold seed_data. cbn [for_each].
  repeat (rewrite ?bind_run, ?ret_run;
          try erewrite create_document_run by reflexivity;
          cbv beta iota; cbn [db next_id accesses record]).
  rewrite Hempty.
  rewrite !lookup_total_insert_eq, !insert_insert_eq.
  cbn [app]. rewrite <- !app_assoc. cbn [app].
  unfold seed_documents, seed_data. cbn [zip_with].
  repeat f_equal; lia.
Qed.

End StorageFacts.

(** C3. With no storage handle configured, seeding, listing and matching
    each end in an error that reports the missing storage, and the world
    is left exactly as it was: no read and no write of the store is
    recorded.  Seeding and matching test [db is None] themselves; listing
    has no test of its own and gets the error from [get_documents]. *)
Theorem C3_unconfigured_storage_is_reported_first
    (lower : string → string) (profile : Inquiry.t) (limit : option Z) (w : World) :
  db w = None →
  seed_benefits w = (Raises (HTTPException 500 "Database not configured"), w)
  ∧ match_benefits lower profile w
    = (Raises (HTTPException 500 "Database not configured"), w)
  ∧ list_benefits limit w = (Raises StorageUnavailable, w).
Proof.
  intros Hd. repeat split.
  - unfold seed_benefits.
    by rewrite bind_run, db_is_None_run, Hd.
  - unfold match_benefits.
    by rewrite bind_run, db_is_None_run, Hd.
  - unfold list_benefits, get_documents.
    by rewrite bind_run, Hd.
Qed.

(** C9. Seeding a configured store is idempotent.  On a catalog that
    already holds a record it reports [inserted = 0], writes nothing and
    leaves the store as it is.  On an empty catalog it reports
    [inserted = 4] and the catalog becomes the four seed records, SNAP,
    Medicaid, Pell Grant and Section 8 Voucher in this order, written by
    four writes.  A second call right after any first one reports
    [inserted = 0] and leaves the store as the first call left it. *)
Theorem C9_seed_is_idempotent (w : World) (d : gmap string (list Document)) :
  db w = Some d →
  (d !!! "benefit" ≠ [] →
     fst (seed_benefits w) = Returns {| inserted := 0 |}
     ∧ db (snd (seed_benefits w)) = db w
     ∧ accesses (snd (seed_benefits w)) = accesses w ++ [Read "benefit"])
  ∧ (d !!! "benefit" = [] →
     fst (seed_benefits w) = Returns {| inserted := 4 |}
     ∧ db (snd (seed_benefits w))
       = Some (<["benefit" := seed_documents (next_id w)]> d)
     ∧ fields <$> seed_documents (next_id w) = seed_data
     ∧ Benefit.name <$> seed_data
       = ["SNAP (Food Assistance)"; "Medicaid"; "Pell Grant";
          "Section 8 Housing Choice Voucher"]
     ∧ accesses (snd (seed_benefits w))
       = accesses w ++ [Read "benefit"; Write "benefit"; Write "benefit";
                        Write "benefit"; Write "benefit"])
  ∧ (let once := snd (seed_benefits w) in
     fst (seed_benefits once) = Returns {| inserted := 0 |}
     ∧ db (snd (seed_benefits once)) = db once
     ∧ accesses (snd (seed_benefits once)) = accesses once ++ [Read "benefit"]).
Proof.
  intros Hd.
  assert (Hkeep : ∀ w' d', db w' = Some d' → d' !!! "benefit" ≠ [] →
    fst (seed_benefits w') = Returns {| inserted := 0 |}
    ∧ db (snd (seed_benefits w')) = db w'
    ∧ accesses (snd (seed_benefits w')) = accesses w' ++ [Read "benefit"]).
  { intros w' d' Hd' Hne. by rewrite (seed_benefits_nonempty w' d' Hd' Hne). }
  split; [by apply Hkeep|split].
  - intros Hempty. by rewrite (seed_benefits_empty w d Hd Hempty).
  - cbv zeta. destruct (d !!! "benefit") as [|doc docs] eqn:Hcat.
    + rewrite (seed_benefits_empty w d Hd Hcat).
      eapply Hkeep; [reflexivity|].
      by rewrite lookup_total_insert_eq.
    + assert (Hne : d !!! "benefit" ≠ []) by by rewrite Hcat.
      rewrite (seed_benefits_nonempty w d Hd Hne).
      apply (Hkeep _ d); [exact Hd|exact Hne].
Qed.

(** ** Worked instances *)

(** The specification's scenario: income 45000 against SNAP and Pell. *)
Lemma C1_witness :
  is_Some (score_benefit ascii_lower (Sample.student 45000) Sample.pell)
  ∧ (2 >=? 0) = true
  ∧ match_catalog ascii_lower (Sample.student 45000) [Sample.snap; Sample.pell]
    = [Sample.pell].
Proof.
  destruct (C1_match_is_the_hard_rule_filter ascii_lower
              (Sample.student 45000) [Sample.snap; Sample.pell])
    as (Hreach & Hscore & Hfilter).
  split; [|split].
  - apply Hreach. reflexivity.
  - apply (Hscore Sample.pell 2). reflexivity.
  - rewrite Hfilter. reflexivity.
Defined.

Lemma C2_witness :
  (Sample.snap ∉ match_catalog ascii_lower (Sample.student 45000)
                  [Sample.snap; Sample.pell])
  ∧ accepted ascii_lower (Sample.student 30000) Sample.snap
    = accepted ascii_lower (profile_with_income None (Sample.student 30000)) Sample.snap
  ∧ accepted ascii_lower Sample.nobody Sample.snap
    = accepted ascii_lower Sample.nobody (benefit_with_max_income None Sample.snap).
Proof.
  split; [|split].
  - apply (proj1 (C2_income_rule ascii_lower (Sample.student 45000) Sample.snap)
             (float_of_Z 45000) (float_of_Z 30000));
      reflexivity.
  - apply (proj1 (proj2 (C2_income_rule ascii_lower (Sample.student 30000) Sample.snap))
             (float_of_Z 30000) (float_of_Z 30000));
      reflexivity.
  - apply (proj2 (proj2 (C2_income_rule ascii_lower Sample.nobody Sample.snap))).
    left. reflexivity.
Defined.

Lemma C3_witness :
  seed_benefits Sample.unconfigured
  = (Raises (HTTPException 500 "Database not configured"), Sample.unconfigured)
  ∧ match_benefits ascii_lower Sample.nobody Sample.unconfigured
    = (Raises (HTTPException 500 "Database not configured"), Sample.unconfigured)
  ∧ list_benefits (Some 50) Sample.unconfigured
    = (Raises StorageUnavailable, Sample.unconfigured).
Proof.
  apply (C3_unconfigured_storage_is_reported_first
           ascii_lower Sample.nobody (Some 50) Sample.unconfigured).
  reflexivity.
Defined.

Lemma C4_witness :
  (accepted ascii_lower (profile_with_tags (Some ["Household"]) (Sample.student 25000))
     <$> seed_data)
  = (accepted ascii_lower (Sample.student 25000)
       <$> (benefit_with_tags (Some ["x"]) <$> seed_data))
  ∧ (benefit_sans_tags
       <$> match_catalog ascii_lower
             (profile_with_tags (Some ["Household"]) (Sample.student 25000)) seed_data)
    = (benefit_sans_tags
         <$> match_catalog ascii_lower (Sample.student 25000)
               (benefit_with_tags (Some ["x"]) <$> seed_data)).
Proof.
  apply (C4_tags_never_change_the_result ascii_lower
           (profile_with_tags (Some ["Household"]) (Sample.student 25000))
           (Sample.student 25000)
           seed_data (benefit_with_tags (Some ["x"]) <$> seed_data));
    reflexivity.
Defined.

Lemma C5_witness :
  (Sample.adults_only ∉ match_catalog ascii_lower (Sample.aged 17) [Sample.adults_only])
  ∧ accepted ascii_lower (Sample.aged 18) Sample.adults_only
    = accepted ascii_lower (Sample.aged 18) (benefit_with_min_age None Sample.adults_only)
  ∧ (Sample.working_age ∉ match_catalog ascii_lower (Sample.aged 66) [Sample.working_age])
  ∧ accepted ascii_lower (Sample.aged 65) Sample.working_age
    = accepted ascii_lower (Sample.aged 65) (benefit_with_max_age None Sample.working_age)
  ∧ accepted ascii_lower Sample.nobody Sample.adults_only
    = accepted ascii_lower Sample.nobody (benefit_with_min_age None Sample.adults_only)
  ∧ accepted ascii_lower Sample.nobody Sample.working_age
    = accepted ascii_lower Sample.nobody (benefit_with_max_age None Sample.working_age).
Proof.
  split; [|split; [|split; [|split; [|split]]]].
  - destruct (C5_age_bounds_are_inclusive ascii_lower (Sample.aged 17) Sample.adults_only)
      as (H & _).
    apply (H 17 18); [reflexivity | reflexivity | lia].
  - destruct (C5_age_bounds_are_inclusive ascii_lower (Sample.aged 18) Sample.adults_only)
      as (_ & H & _).
    apply (H 18 18); [reflexivity | reflexivity | lia].
  - destruct (C5_age_bounds_are_inclusive ascii_lower (Sample.aged 66) Sample.working_age)
      as (_ & _ & H & _).
    apply (H 66 65); [reflexivity | reflexivity | lia].
  - destruct (C5_age_bounds_are_inclusive ascii_lower (Sample.aged 65) Sample.working_age)
      as (_ & _ & _ & H & _).
    apply (H 65 65); [reflexivity | reflexivity | lia].
  - destruct (C5_age_bounds_are_inclusive ascii_lower Sample.nobody Sample.adults_only)
      as (_ & _ & _ & _ & H & _).
    apply H. left. reflexivity.
  - destruct (C5_age_bounds_are_inclusive ascii_lower Sample.nobody Sample.working_age)
      as (_ & _ & _ & _ & _ & H & _).
    apply H. left. reflexivity.
Defined.

Lemma C6_witness :
  (Sample.for_disabled ∉ match_catalog ascii_lower Sample.nobody [Sample.for_disabled])
  ∧ (Sample.for_veterans ∉ match_catalog ascii_lower Sample.nobody [Sample.for_veterans])
  ∧ (Sample.for_parents
     ∉ match_catalog ascii_lower (Sample.with_dependents (Some 0)) [Sample.for_parents])
  ∧ (Sample.for_parents
     ∉ match_catalog ascii_lower (Sample.with_dependents None) [Sample.for_parents])
  ∧ accepted ascii_lower (Sample.with_dependents (Some 1)) Sample.for_parents
    = accepted ascii_lower (Sample.with_dependents (Some 1))
        (benefit_with_requires_dependents None Sample.for_parents).
Proof.
  split; [|split; [|split; [|split]]].
  - destruct (C6_flag_requirements ascii_lower Sample.nobody Sample.for_disabled)
      as (H & _).
    apply H; [reflexivity | discriminate].
  - destruct (C6_flag_requirements ascii_lower Sample.nobody Sample.for_veterans)
      as (_ & H & _).
    apply H; [reflexivity | discriminate].
  - destruct (C6_flag_requirements ascii_lower (Sample.with_dependents (Some 0))
                Sample.for_parents) as (_ & _ & H & _).
    apply H; [reflexivity | right; reflexivity].
  - destruct (C6_flag_requirements ascii_lower (Sample.with_dependents None)
                Sample.for_parents) as (_ & _ & H & _).
    apply H; [reflexivity | left; reflexivity].
  - destruct (C6_flag_requirements ascii_lower (Sample.with_dependents (Some 1))
                Sample.for_parents) as (_ & _ & _ & H & _).
    apply (H 1); [reflexivity | reflexivity | lia].
Defined.

Lemma C7_witness :
  accepted ascii_lower (Sample.living_in "ca") Sample.californian
  = accepted ascii_lower (Sample.living_in "ca")
      (benefit_with_location None Sample.californian)
  ∧ (Sample.californian
     ∉ match_catalog ascii_lower (Sample.living_in "NY") [Sample.californian])
  ∧ accepted ascii_lower Sample.nobody Sample.californian
    = accepted ascii_lower Sample.nobody
        (benefit_with_location None Sample.californian).
Proof.
  split; [|split].
  - destruct (C7_location_rule (Sample.living_in "ca") Sample.californian)
      as (H & _).
    apply H; reflexivity.
  - destruct (C7_location_rule (Sample.living_in "NY") Sample.californian)
      as (_ & H & _).
    apply H; reflexivity.
  - destruct (C7_location_rule Sample.nobody Sample.californian)
      as (_ & _ & H & _).
    apply H. right. reflexivity.
Defined.

Lemma C8_witness :
  sublist (match_catalog ascii_lower (Sample.student 45000) [Sample.snap; Sample.pell])
    [Sample.snap; Sample.pell]
  ∧ NoDup (match_catalog ascii_lower (Sample.student 45000) [Sample.snap; Sample.pell]).
Proof.
  destruct (C8_match_is_a_subsequence ascii_lower
              (Sample.student 45000) [Sample.snap; Sample.pell])
    as (Hsub & _ & Hnodup).
  split; [exact Hsub|].
  apply Hnodup.
  apply NoDup_cons. split.
  - intros Hin. apply list_elem_of_singleton in Hin. discriminate.
  - apply NoDup_singleton.
Defined.

Lemma C9_witness :
  fst (seed_benefits Sample.empty_store) = Returns {| inserted := 4 |}
  ∧ fst (seed_benefits (snd (seed_benefits Sample.empty_store)))
    = Returns {| inserted := 0 |}
  ∧ db (snd (seed_benefits (snd (seed_benefits Sample.empty_store))))
    = db (snd (seed_benefits Sample.empty_store)).
Proof.
  destruct (C9_seed_is_idempotent Sample.empty_store ∅ eq_refl)
    as (_ & Hfresh & Hagain).
  split.
  - apply Hfresh. reflexivity.
  - split; apply Hagain.
Defined.

Lemma C10_witness :
  accepted ascii_lower (Sample.living_in "NY") Sample.nowhere
  = accepted ascii_lower (Sample.living_in "NY")
      (benefit_with_location None Sample.nowhere)
  ∧ accepted ascii_lower (Sample.living_in "") Sample.californian
    = accepted ascii_lower (profile_with_location None (Sample.living_in ""))
        Sample.californian.
Proof.
  split.
  - apply (C10_empty_location_is_absent ascii_lower
             (Sample.living_in "NY") Sample.nowhere).
    left. reflexivity.
  - apply (C10_empty_location_is_absent ascii_lower
             (Sample.living_in "") Sample.californian).
    right. reflexivity.
Defined.

(** ** Further properties of the matching loop *)

Lemma SFleb_trans (x y z : float) :
  SFleb x y = true → SFleb y z = true → SFleb x z = true.
Proof.
  unfold SFleb, SFcompare.
  destruct x as [sx|sx| |sx mx ex], y as [sy|sy| |sy my ey],
    z as [sz|sz| |sz mz ez];
    try destruct sx; try destruct sy; try destruct sz;
    try discriminate; try reflexivity.
  all: change (Pos.compare_cont Eq) with Pos.compare.
  all: destruct (Z.compare_spec ex ey), (Z.compare_spec ey ez),
         (Z.compare_spec ex ez);
       try discriminate; try reflexivity; try lia.
  all: destruct (Pos.compare_spec mx my), (Pos.compare_spec my mz),
         (Pos.compare_spec mx mz);
       simpl; try discriminate; try reflexivity; try lia.
Qed.

(** A float that passes [ge=0] is not NaN, so it compares with anything
    that is not NaN either. *)
Lemma SFleb_total_valid (x y : float) :
  SFleb (float_of_Z 0) x = true → SFleb (float_of_Z 0) y = true →
  SFleb x y = false → SFltb y x = true.
Proof.
  change (float_of_Z 0) with (S754_zero false).
  unfold SFltb, SFleb. rewrite (SFcompare_swap x y).
  destruct x as [sx|sx| |sx mx ex], y as [sy|sy| |sy my ey];
    try discriminate; intros _ _;
    destruct (SFcompare _ _) as [[]|] eqn:Hc;
    try discriminate; try reflexivity;
    simpl in Hc; repeat case_match; discriminate.
Qed.

Section MoreMatcherFacts.
Variable lower : string → string.
Implicit Types (p : Inquiry.t) (b : Benefit.t) (cat : list Benefit.t).

Lemma accepted_iff p b :
  accepted lower p b = true ↔
  HardRules.income p b = false ∧ HardRules.min_age p b = false
  ∧ HardRules.max_age p b = false ∧ HardRules.location lower p b = false
  ∧ HardRules.disability p b = false ∧ HardRules.veteran p b = false
  ∧ HardRules.dependents p b = false.
Proof.
  rewrite accepted_rules. unfold HardRules.excluded.
  destruct (HardRules.income p b), (HardRules.min_age p b),
    (HardRules.max_age p b), (HardRules.location lower p b),
    (HardRules.disability p b), (HardRules.veteran p b),
    (HardRules.dependents p b); simpl; intuition congruence.
Qed.

Lemma filter_filter_same (f : Benefit.t → bool) cat :
  List.filter f (List.filter f cat) = List.filter f cat.
Proof.
  induction cat as [|b cat IH]; [reflexivity|]. simpl.
  destruct (f b) eqn:Hb; [|exact IH]. simpl. by rewrite Hb, IH.
Qed.

(** X1. Each benefit is judged on its own: matching two catalogs laid end
    to end gives the two results laid end to end. *)
Theorem X1_match_distributes_over_append p cat1 cat2 :
  match_catalog lower p (cat1 ++ cat2)
  = match_catalog lower p cat1 ++ match_catalog lower p cat2.
Proof. rewrite !match_catalog_filter. apply List.filter_app. Qed.

(** X2. Matching is idempotent: every returned benefit is returned again
    when the result is matched against the same profile. *)
Theorem X2_match_is_idempotent p cat :
  match_catalog lower p (match_catalog lower p cat) = match_catalog lower p cat.
Proof. rewrite !match_catalog_filter. apply filter_filter_same. Qed.

(** X3. A score that reaches the accept check is 0, 1, 2 or 3, and it is
    at least 2 exactly when both the profile's income and the benefit's
    cap are present. *)
Theorem X3_score_range p b score :
  score_benefit lower p b = Some score →
  (score = 0 ∨ score = 1 ∨ score = 2 ∨ score = 3)
  ∧ (2 ≤ score ↔ is_Some (Inquiry.income p) ∧ is_Some (Benefit.max_income b)).
Proof.
  rewrite score_benefit_rules.
  destruct (HardRules.excluded lower p b); [discriminate|].
  intros [= <-]. unfold income_points, tag_points.
  destruct (Inquiry.income p), (Benefit.max_income b),
    (truthy_list (Inquiry.tags p) && truthy_list (Benefit.tags b));
    try case_bool_decide;
    (split; [lia|]); split;
    try (intros _; split; by eexists); try lia;
    intros [[? ?] [? ?]]; try discriminate; lia.
Qed.

(** X4. The tag boost is given exactly when some tag of the profile and
    some tag of the benefit are equal once lowered: the score is odd in
    that case and in no other. *)
Theorem X4_tag_boost p b score :
  score_benefit lower p b = Some score →
  (Z.odd score = true ↔
   ∃ ts us t u, Inquiry.tags p = Some ts ∧ Benefit.tags b = Some us
                ∧ t ∈ ts ∧ u ∈ us ∧ lower t = lower u).
Proof.
  rewrite score_benefit_rules.
  destruct (HardRules.excluded lower p b); [discriminate|].
  intros [= <-].
  assert (Hshared :
    lowered_set lower (Inquiry.tags p) ∩ lowered_set lower (Benefit.tags b) ≠ ∅
    ↔ ∃ t u, t ∈ default [] (Inquiry.tags p) ∧ u ∈ default [] (Benefit.tags b)
             ∧ lower t = lower u).
  { unfold lowered_set. split.
    - intros Hne. apply set_choose_L in Hne as [x Hx].
      apply elem_of_intersection in Hx as [Hp Hb].
      apply elem_of_list_to_set, list_elem_of_fmap in Hp as (t & -> & Ht).
      apply elem_of_list_to_set, list_elem_of_fmap in Hb as (u & Hu & Hub).
      by exists t, u.
    - intros (t & u & Ht & Hu & Heq) Hempty.
      assert (Hin : lower t ∈ (∅ : gset string)); [|set_solver].
      rewrite <- Hempty. apply elem_of_intersection.
      split; apply elem_of_list_to_set, list_elem_of_fmap;
        [by exists t | by exists u]. }
  assert (Hodd : ∀ n, n = 0 ∨ n = 2 → Z.odd (n + 1) = true ∧ Z.odd (n + 0) = false).
  { by intros n [-> | ->]. }
  assert (Hinc : income_points p b = 0 ∨ income_points p b = 2).
  { unfold income_points.
    destruct (Inquiry.income p), (Benefit.max_income b); auto. }
  destruct (Hodd _ Hinc) as [Hyes Hno]. unfold tag_points.
  destruct (Inquiry.tags p) as [[|t0 ts]|] eqn:Hpt,
    (Benefit.tags b) as [[|u0 us]|] eqn:Hbt; simpl;
    try (rewrite Hno; split; [discriminate|];
         intros (? & ? & ? & ? & [= <-] & [= <-] & Ht & Hu & _);
         by (apply not_elem_of_nil in Ht || apply not_elem_of_nil in Hu)).
  case_bool_decide as Hdec.
  - rewrite Hyes. split; [intros _|done].
    apply Hshared in Hdec as (t & u & Ht & Hu & Heq).
    by exists (t0 :: ts), (u0 :: us), t, u.
  - rewrite Hno. split; [discriminate|].
    intros (? & ? & t & u & [= <-] & [= <-] & Ht & Hu & Heq).
    assert (Hne : lowered_set lower (Some (t0 :: ts))
                  ∩ lowered_set lower (Some (u0 :: us)) ≠ ∅)
      by (apply Hshared; by exists t, u).
    exfalso. by apply Hne.
Qed.
End MoreMatcherFacts.

Section ProfileChanges.
Variable lower : string → string.
Implicit Types (p : Inquiry.t) (b : Benefit.t) (cat : list Benefit.t).

(** X5. The matcher never reads the profile's employment or housing
    status, nor a benefit's name, agency, description, category, link or
    notes: changing them changes neither the score nor the result. *)
Theorem X5_unread_fields p b employment housing
    name agency description category url notes :
  score_benefit lower (profile_with_statuses employment housing p)
    (benefit_with_presentation name agency description category url notes b)
  = score_benefit lower p b
  ∧ ∀ cat, match_catalog lower (profile_with_statuses employment housing p) cat
           = match_catalog lower p cat.
Proof.
  split; [reflexivity|].
  intros cat. rewrite !match_catalog_filter. apply filter_ext.
  intros b'. apply accepted_same_rules; reflexivity.
Qed.

(** X6. The ages a benefit accepts form an interval: a profile accepted at
    two ages is accepted at every age in between, all else equal. *)
Theorem X6_accepted_ages_are_an_interval p b a1 a a2 :
  accepted lower (profile_with_age (Some a1) p) b = true →
  accepted lower (profile_with_age (Some a2) p) b = true →
  a1 ≤ a ≤ a2 →
  accepted lower (profile_with_age (Some a) p) b = true.
Proof.
  intros (Hi & Hmin & _ & Hl & Hd & Hv & Hdep)%accepted_iff
         (_ & _ & Hmax & _)%accepted_iff Hbetween.
  apply accepted_iff. repeat split; try assumption.
  - unfold HardRules.min_age in *; simpl in *.
    destruct (Benefit.min_age b); [|done].
    apply Z.ltb_ge in Hmin. apply Z.ltb_ge. lia.
  - unfold HardRules.max_age in *; simpl in *.
    destruct (Benefit.max_age b); [|done].
    apply Z.ltb_ge in Hmax. apply Z.ltb_ge. lia.
Qed.

(** X7. A lower income never loses a benefit: a profile accepted with
    income [i] is accepted with any income [i' <= i], all else equal. *)
Theorem X7_lower_income_keeps_benefits p b i i' :
  Inquiry.income p = Some i →
  SFleb i' i = true →
  accepted lower p b = true →
  accepted lower (profile_with_income (Some i') p) b = true.
Proof.
  intros Hinc Hle (Hi & Hrest)%accepted_iff.
  apply accepted_iff. split; [|exact Hrest].
  unfold HardRules.income in *; simpl. rewrite Hinc in Hi.
  destruct (Benefit.max_income b) as [cap|]; [|done].
  apply negb_false_iff in Hi. apply negb_false_iff.
  by apply (SFleb_trans i' i cap).
Qed.

(** X8. Declaring more never loses a benefit: setting the disability flag
    or the veteran flag to true, or stating a number of dependents other
    than zero, keeps every benefit the profile was accepted for. *)
Theorem X8_declaring_more_keeps_benefits p b :
  accepted lower p b = true →
  accepted lower (profile_with_disability (Some true) p) b = true
  ∧ accepted lower (profile_with_veteran (Some true) p) b = true
  ∧ ∀ d, d ≠ 0 → accepted lower (profile_with_dependents (Some d) p) b = true.
Proof.
  intros (Hi & Hmin & Hmax & Hl & Hd & Hv & Hdep)%accepted_iff.
  split; [|split; [|intros d Hnz]];
    apply accepted_iff; repeat split; try assumption.
  - unfold HardRules.disability; simpl.
    by destruct (Benefit.requires_disability b) as [[]|].
  - unfold HardRules.veteran; simpl.
    by destruct (Benefit.requires_veteran b) as [[]|].
  - unfold HardRules.dependents; simpl.
    destruct (Benefit.requires_dependents b) as [[]|]; try done.
    by apply Z.eqb_neq.
Qed.

(** X9. What is left unsaid counts differently by field.  A profile that
    states no age, income, location, flag or dependents passes every
    age, income and location rule and fails every required flag: it is
    accepted exactly for the benefits that require neither disability,
    nor veteran status, nor dependents. *)
Theorem X9_silent_profile p b :
  Inquiry.age p = None → Inquiry.income p = None → Inquiry.location p = None →
  Inquiry.disability p = None → Inquiry.veteran p = None →
  Inquiry.dependents p = None →
  accepted lower p b
  = negb (truthy_bool (Benefit.requires_disability b)
          || truthy_bool (Benefit.requires_veteran b)
          || truthy_bool (Benefit.requires_dependents b)).
Proof.
  intros Ha Hi Hl Hd Hv Hdep. rewrite accepted_rules.
  unfold HardRules.excluded, HardRules.income, HardRules.min_age,
    HardRules.max_age, HardRules.location, HardRules.disability,
    HardRules.veteran, HardRules.dependents, truthy_bool.
  rewrite Ha, Hi, Hl, Hd, Hv, Hdep.
  by destruct (Benefit.requires_disability b) as [[]|],
    (Benefit.requires_veteran b) as [[]|],
    (Benefit.requires_dependents b) as [[]|].
Qed.

(** X10. Nothing compares [min_age] with [max_age].  A benefit whose
    minimum age is above its maximum age is never returned to a profile
    that states an age, whatever the age. *)
Theorem X10_crossed_age_bounds p b lo hi a :
  Benefit.min_age b = Some lo → Benefit.max_age b = Some hi → hi < lo →
  Inquiry.age p = Some a →
  ∀ cat, b ∉ match_catalog lower p cat.
Proof.
  intros Hlo Hhi Hcross Ha cat. apply excluded_never_matched.
  unfold HardRules.excluded, HardRules.min_age, HardRules.max_age.
  rewrite Ha, Hlo, Hhi.
  destruct (a <? lo) eqn:Hmin; [by rewrite orb_true_r|].
  apply Z.ltb_ge in Hmin.
  assert (Hmax : (hi <? a) = true) by (apply Z.ltb_lt; lia).
  rewrite Hmax. by rewrite !orb_true_r.
Qed.

(** X11. On validated input the income rule is decided by order alone.
    When profile and benefit both pass their field constraints, and the
    profile would be accepted without its income but is not accepted with
    it, the income is above the cap. *)
Theorem X11_validated_income_rejection p b i cap :
  valid_inquiry p = true → valid_benefit b = true →
  Inquiry.income p = Some i → Benefit.max_income b = Some cap →
  accepted lower (profile_with_income None p) b = true →
  accepted lower p b = false →
  SFltb cap i = true.
Proof.
  intros Hvp Hvb Hi Hcap (_ & Hrest)%accepted_iff Hrejected.
  unfold valid_inquiry, valid_benefit in *.
  rewrite Hi in Hvp. rewrite Hcap in Hvb.
  apply andb_prop in Hvp as [[_ Hvi]%andb_prop _].
  apply andb_prop in Hvb as [_ Hvc].
  apply SFleb_total_valid; [exact Hvi | exact Hvc |].
  destruct (SFleb i cap) eqn:Hle; [|reflexivity].
  assert (Hacc : accepted lower p b = true); [|congruence].
  apply accepted_iff. split; [|exact Hrest].
  unfold HardRules.income. by rewrite Hi, Hcap, Hle.
Qed.
End ProfileChanges.

(** ** Further properties of the endpoints *)

Section EndpointFacts.
Variable lower : string → string.
Implicit Types (w : World) (d : gmap string (list Document)).




End EndpointFacts.

Section DiagnosticFacts.
Variable first_50 : string → string.
Implicit Types (handle : option Handle.t) (environ : gmap string string).

(** X15. The two configuration lines of the diagnostic report depend on
    the environment alone: whatever the handle is, [database_url] and
    [database_name] say whether [DATABASE_URL] and [DATABASE_NAME] are set
    to a non-empty value, and the handle's own name is never reported. *)
Theorem X15_report_configuration_from_environment handle handle' environ :
  database_url (test_database first_50 handle environ)
  = database_url (test_database first_50 handle' environ)
  ∧ database_name (test_database first_50 handle environ)
    = database_name (test_database first_50 handle' environ)
  ∧ (database_url (test_database first_50 handle environ) = Some "✅ Set"
     ↔ ∃ v, environ !! "DATABASE_URL" = Some v ∧ v ≠ "")
  ∧ (database_name (test_database first_50 handle environ) = Some "✅ Set"
     ↔ ∃ v, environ !! "DATABASE_NAME" = Some v ∧ v ≠ "").
Proof.
  assert (Hset : ∀ o : option string,
    Some (if truthy_str o then "✅ Set" else "❌ Not Set") = Some "✅ Set"
    ↔ ∃ v, o = Some v ∧ v ≠ "").
  { intros [v|]; simpl.
    - destruct (String.eqb_spec v ""); simpl; split; try done.
      + intros (v' & [= <-] & Hne). done.
      + intros _. by exists v.
    - split; [done|]. by intros (v & ? & _). }
  split; [reflexivity|]. split; [reflexivity|].
  split; apply Hset.
Qed.
End DiagnosticFacts.

Section DiagnosticStatus.
Variable first_50 : string → string.
Implicit Types (handle : option Handle.t) (environ : gmap string string).

(** X16. The diagnostic report lists at most ten collections: the first
    ten names, in order, when the handle lists its collections, and none
    when there is no handle or the listing raises. *)
Theorem X16_report_collections handle environ :
  (length (collections (test_database first_50 handle environ)) ≤ 10)%nat
  ∧ (∀ h names, handle = Some h → Handle.list_collection_names h = inr names →
       collections (test_database first_50 handle environ) = take 10 names
       ∧ ((length names ≤ 10)%nat →
          collections (test_database first_50 handle environ) = names))
  ∧ ((handle = None
      ∨ ∃ h e, handle = Some h ∧ Handle.list_collection_names h = inl e) →
       collections (test_database first_50 handle environ) = []).
Proof.
  split; [|split].
  - destruct handle as [[n [e|names]]|]; simpl; try lia.
    rewrite length_take. lia.
  - intros h names -> Hnames. unfold test_database. rewrite Hnames. simpl.
    split; [reflexivity|]. intros Hshort. by apply take_ge.
  - intros [-> | (h & e & -> & He)]; [reflexivity|].
    unfold test_database. by rewrite He.
Qed.

(** X17. The status lines of the diagnostic report follow the handle.
    [connection_status] is ["Connected"] exactly when there is a handle;
    [database] is ["✅ Connected & Working"] exactly when there is a handle
    and it lists its collections; the initial ["❌ Not Available"] is never
    what is returned. *)
Theorem X17_report_status handle environ :
  (connection_status (test_database first_50 handle environ) = "Connected"
   ↔ handle ≠ None)
  ∧ (database (test_database first_50 handle environ) = "✅ Connected & Working"
     ↔ ∃ h names, handle = Some h ∧ Handle.list_collection_names h = inr names)
  ∧ database (test_database first_50 handle environ) ≠ "❌ Not Available".
Proof.
  destruct handle as [[n [e|names]]|]; simpl.
  - split; [done|]. split; [|discriminate].
    split; [discriminate|]. by intros (h & names & [= <-] & ?).
  - split; [done|]. split; [|discriminate].
    split; [|done]. intros _. by eexists _, _.
  - split; [split; [discriminate|done]|]. split; [|discriminate].
    split; [discriminate|]. by intros (h & names & ? & _).
Qed.
End DiagnosticStatus.

(** ** More worked instances *)

Lemma X3_witness :
  (2 = 0 ∨ 2 = 1 ∨ 2 = 2 ∨ 2 = 3)
  ∧ (2 ≤ 2 ↔ is_Some (Inquiry.income (Sample.student 25000))
             ∧ is_Some (Benefit.max_income Sample.snap)).
Proof.
  apply (X3_score_range ascii_lower (Sample.student 25000) Sample.snap 2).
  reflexivity.
Defined.

Lemma X4_witness :
  Z.odd 1 = true ↔
  ∃ ts us t u,
    Inquiry.tags (Sample2.tagged ["Household"]) = Some ts
    ∧ Benefit.tags (Sample2.tagged_benefit ["low-income"; "household"]) = Some us
    ∧ t ∈ ts ∧ u ∈ us ∧ ascii_lower t = ascii_lower u.
Proof.
  apply (X4_tag_boost ascii_lower (Sample2.tagged ["Household"])
           (Sample2.tagged_benefit ["low-income"; "household"]) 1).
  reflexivity.
Defined.

Lemma X6_witness :
  accepted ascii_lower (profile_with_age (Some 40) Sample.nobody)
    Sample2.adults_of_working_age = true.
Proof.
  apply (X6_accepted_ages_are_an_interval ascii_lower Sample.nobody
           Sample2.adults_of_working_age 18 40 65);
    [reflexivity | reflexivity | lia].
Defined.

Lemma X7_witness :
  accepted ascii_lower
    (profile_with_income (Some (float_of_Z 10000)) (Sample.student 25000))
    Sample.snap = true.
Proof.
  apply (X7_lower_income_keeps_benefits ascii_lower (Sample.student 25000)
           Sample.snap (float_of_Z 25000) (float_of_Z 10000));
    reflexivity.
Defined.

Lemma X8_witness :
  accepted ascii_lower (profile_with_disability (Some true) Sample.nobody)
    Sample.snap = true
  ∧ accepted ascii_lower (profile_with_veteran (Some true) Sample.nobody)
      Sample.snap = true
  ∧ ∀ d, d ≠ 0 →
      accepted ascii_lower (profile_with_dependents (Some d) Sample.nobody)
        Sample.snap = true.
Proof.
  apply (X8_declaring_more_keeps_benefits ascii_lower Sample.nobody Sample.snap).
  reflexivity.
Defined.

Lemma X9_witness :
  accepted ascii_lower Sample.nobody Sample.for_parents
  = negb (truthy_bool (Benefit.requires_disability Sample.for_parents)
          || truthy_bool (Benefit.requires_veteran Sample.for_parents)
          || truthy_bool (Benefit.requires_dependents Sample.for_parents)).
Proof.
  apply (X9_silent_profile ascii_lower Sample.nobody Sample.for_parents);
    reflexivity.
Defined.

Lemma X10_witness :
  valid_benefit Sample2.crossed = true
  ∧ ∀ cat, Sample2.crossed ∉ match_catalog ascii_lower (Sample.aged 30) cat.
Proof.
  split; [reflexivity|].
  apply (X10_crossed_age_bounds ascii_lower (Sample.aged 30) Sample2.crossed 65 18 30);
    [reflexivity | reflexivity | lia | reflexivity].
Defined.

Lemma X11_witness : SFltb (float_of_Z 30000) (float_of_Z 45000) = true.
Proof.
  apply (X11_validated_income_rejection ascii_lower
           (Sample.student 45000) Sample.snap);
    reflexivity.
Defined.




Lemma X15_witness :
  database_name (test_database (String.substring 0 50) None Sample2.configured_env)
  = Some "✅ Set"
  ∧ database_url (test_database (String.substring 0 50) (Some Sample2.healthy) ∅)
    ≠ Some "✅ Set".
Proof.
  split.
  - apply (X15_report_configuration_from_environment
             (String.substring 0 50) None None Sample2.configured_env).
    exists "benefits". split; [reflexivity | discriminate].
  - intros Hset.
    apply (X15_report_configuration_from_environment
             (String.substring 0 50) (Some Sample2.healthy) None ∅) in Hset
      as (v & Hv & _).
    discriminate Hv.
Defined.

Lemma X16_witness :
  collections (test_database (String.substring 0 50)
                 (Some Sample2.healthy) Sample2.configured_env)
  = ["a"; "b"; "c"; "d"; "e"; "f"; "g"; "h"; "i"; "j"]
  ∧ collections (test_database (String.substring 0 50)
                   (Some Sample2.broken) Sample2.configured_env) = [].
Proof.
  destruct (X16_report_collections (String.substring 0 50)
              (Some Sample2.healthy) Sample2.configured_env) as (_ & Hlisted & _).
  destruct (X16_report_collections (String.substring 0 50)
              (Some Sample2.broken) Sample2.configured_env) as (_ & _ & Hnone).
  split.
  - apply (Hlisted Sample2.healthy Sample2.many_names); reflexivity.
  - apply Hnone. right. exists Sample2.broken, "timed out".
    split; reflexivity.
Defined.

Lemma X17_witness :
  connection_status (test_database (String.substring 0 50)
                       (Some Sample2.broken) Sample2.configured_env) = "Connected"
  ∧ database (test_database (String.substring 0 50)
                (Some Sample2.healthy) Sample2.configured_env)
    = "✅ Connected & Working".
Proof.
  destruct (X17_report_status (String.substring 0 50)
              (Some Sample2.broken) Sample2.configured_env) as (Hconn & _).
  destruct (X17_report_status (String.substring 0 50)
              (Some Sample2.healthy) Sample2.configured_env) as (_ & Hwork & _).
  split.
  - apply Hconn. discriminate.
  - apply Hwork. exists Sample2.healthy, Sample2.many_names.
    split; reflexivity.
Defined.

Section Eligibility.
Variable lower : string → string.
Implicit Types (p : Inquiry.t) (b : Benefit.t) (cat : list Benefit.t).

(** X18. Relaxing a benefit never loses a profile: a profile accepted for
    a benefit is still accepted when the benefit's minimum age, maximum
    age, income cap, location or required flags are removed, all else
    equal. *)
Theorem X18_relaxing_a_benefit_keeps_profiles p b :
  accepted lower p b = true →
  accepted lower p (benefit_with_min_age None b) = true
  ∧ accepted lower p (benefit_with_max_age None b) = true
  ∧ accepted lower p (benefit_with_max_income None b) = true
  ∧ accepted lower p (benefit_with_location None b) = true
  ∧ accepted lower p (benefit_with_flags None None None b) = true.
Proof.
  intros (Hi & Hmin & Hmax & Hl & Hd & Hv & Hdep)%accepted_iff.
  split; [|split; [|split; [|split]]];
    apply accepted_iff; repeat split; try assumption.
  - unfold HardRules.min_age; simpl. by destruct (Inquiry.age p).
  - unfold HardRules.max_age; simpl. by destruct (Inquiry.age p).
  - unfold HardRules.income; simpl. by destruct (Inquiry.income p).
  - unfold HardRules.location; simpl. by destruct (Inquiry.location p).
Qed.

(** X19. Every returned benefit meets every constraint that both sides
    state: income at most the cap, age within the bounds, locations equal
    once lowered when neither is empty, each required flag true in the
    profile, and a number of dependents other than zero when dependents
    are required. *)
Theorem X19_returned_benefits_meet_constraints p b cat :
  b ∈ match_catalog lower p cat →
  (∀ i cap, Inquiry.income p = Some i → Benefit.max_income b = Some cap →
     SFleb i cap = true)
  ∧ (∀ a m, Inquiry.age p = Some a → Benefit.min_age b = Some m → m ≤ a)
  ∧ (∀ a m, Inquiry.age p = Some a → Benefit.max_age b = Some m → a ≤ m)
  ∧ (∀ pl bl, Inquiry.location p = Some pl → Benefit.location b = Some bl →
     pl ≠ "" → bl ≠ "" → lower bl = lower pl)
  ∧ (Benefit.requires_disability b = Some true → Inquiry.disability p = Some true)
  ∧ (Benefit.requires_veteran b = Some true → Inquiry.veteran p = Some true)
  ∧ (Benefit.requires_dependents b = Some true →
     ∃ d, Inquiry.dependents p = Some d ∧ d ≠ 0).
Proof.
  intros [_ (Hi & Hmin & Hmax & Hl & Hd & Hv & Hdep)%accepted_iff]%elem_of_match_catalog.
  split; [|split; [|split; [|split; [|split; [|split]]]]].
  - intros i cap Hp Hb. unfold HardRules.income in Hi.
    rewrite Hp, Hb in Hi. by apply negb_false_iff.
  - intros a m Hp Hb. unfold HardRules.min_age in Hmin.
    rewrite Hp, Hb in Hmin. by apply Z.ltb_ge.
  - intros a m Hp Hb. unfold HardRules.max_age in Hmax.
    rewrite Hp, Hb in Hmax. by apply Z.ltb_ge.
  - intros pl bl Hp Hb Hpl Hbl. unfold HardRules.location in Hl.
    rewrite Hp, Hb in Hl.
    apply String.eqb_neq in Hpl, Hbl. rewrite Hpl, Hbl in Hl. simpl in Hl.
    apply negb_false_iff in Hl. by apply String.eqb_eq.
  - intros Hb. unfold HardRules.disability in Hd. rewrite Hb in Hd.
    by destruct (Inquiry.disability p) as [[]|].
  - intros Hb. unfold HardRules.veteran in Hv. rewrite Hb in Hv.
    by destruct (Inquiry.veteran p) as [[]|].
  - intros Hb. unfold HardRules.dependents in Hdep. rewrite Hb in Hdep.
    destruct (Inquiry.dependents p) as [d|]; [|done].
    exists d. split; [done|]. by apply Z.eqb_neq.
Qed.
End Eligibility.

Lemma X18_witness :
  accepted ascii_lower (Sample.aged 40) (benefit_with_min_age None Sample2.adults_of_working_age)
  = true.
Proof.
  apply (X18_relaxing_a_benefit_keeps_profiles ascii_lower (Sample.aged 40)
           Sample2.adults_of_working_age).
  reflexivity.
Defined.

Lemma X19_witness :
  (∀ i cap, Inquiry.income (Sample.student 45000) = Some i →
     Benefit.max_income Sample.pell = Some cap → SFleb i cap = true)
  ∧ (∀ a m, Inquiry.age (Sample.student 45000) = Some a →
     Benefit.min_age Sample.pell = Some m → m ≤ a).
Proof.
  destruct (X19_returned_benefits_meet_constraints ascii_lower
              (Sample.student 45000) Sample.pell [Sample.snap; Sample.pell])
    as (Hincome & Hmin & _).
  - apply list_elem_of_In. simpl. left. reflexivity.
  - split; [exact Hincome | exact Hmin].
Defined.
